(** * Shallow embedding of the attila_https plugin ([attila_https/__init__.py])

    Strings are Python [str] values restricted to ASCII; the local file
    contents and HTTP bodies are byte strings, also modelled as [string]
    (an [ascii] is one byte).  Exceptions are the Python exception classes
    the code can raise; effects (HTTP requests, local files, warnings) are
    threaded through an explicit [world] by a state-and-exception monad. *)

From Stdlib Require Import ZArith Bool List String Ascii Lia.
From Stdlib Require Import DecimalString.
Import ListNotations.
Open Scope string_scope.

(* ------------------------------------------------------------------ *)
(** ** Python exceptions and the effect monad *)

Inductive exn :=
| AssertionError                 (* a failing [assert] statement *)
| ValueError                     (* [int()], tuple unpacking, [urlparse] *)
| HTTPError (code : Z)           (* [response.raise_for_status()] *)
| InvalidURL                     (* requests' URL preparation (MissingSchema, ...) *)
| OSError                        (* [open()] of a missing local file *)
| OperationNotSupportedError.

Inductive result (A : Type) :=
| Ok (a : A)
| Err (e : exn).
Arguments Ok {A} a.
Arguments Err {A} e.

(** An HTTP request as issued through [requests]. *)
Inductive request :=
| GET (url : string)
| PUT (url : string) (data : string)
| DELETE (url : string).

Record response := {
  status_code : Z;
  content : string
}.

(** The environment the plugin runs against: the HTTP server (as a
    function of the request), the requests issued so far, the local file
    system, the local temp-file allocator and the emitted warnings. *)
Record world := {
  w_server : request -> response;
  w_sent : list request;
  w_files : list (string * string);
  w_temp_path : string -> string;
  w_warnings : list string
}.

Definition M (A : Type) : Type := world -> result A * world.

Definition ret {A} (a : A) : M A := fun w => (Ok a, w).
Definition raise {A} (e : exn) : M A := fun w => (Err e, w).
Definition bind {A B} (m : M A) (k : A -> M B) : M B :=
  fun w => match m w with
           | (Ok a, w') => k a w'
           | (Err e, w') => (Err e, w')
           end.

Notation "x <- m ;; k" := (bind m (fun x => k))
  (at level 61, m at next level, right associativity).

(** Python's [assert cond]. *)
Definition assert_ (b : bool) : M unit :=
  if b then ret tt else raise AssertionError.

(* ------------------------------------------------------------------ *)
(** ** String helpers (Python [str] methods on ASCII strings) *)

Definition char_eqb (a b : ascii) : bool := Ascii.eqb a b.

Fixpoint contains_char (c : ascii) (s : string) : bool :=
  match s with
  | EmptyString => false
  | String a r => char_eqb a c || contains_char c r
  end.

Fixpoint starts_with (p s : string) : bool :=
  match p, s with
  | EmptyString, _ => true
  | String a p', String b s' => char_eqb a b && starts_with p' s'
  | String _ _, EmptyString => false
  end.

(** [sub in s] *)
Fixpoint contains_sub (sub s : string) : bool :=
  starts_with sub s ||
  match s with
  | EmptyString => false
  | String _ r => contains_sub sub r
  end.

(** [str.lower()] on ASCII *)
Definition lower_char (c : ascii) : ascii :=
  let n := nat_of_ascii c in
  if (Nat.leb 65 n) && (Nat.leb n 90) then ascii_of_nat (n + 32)%nat else c.

Fixpoint lower (s : string) : string :=
  match s with
  | EmptyString => EmptyString
  | String a r => String (lower_char a) (lower r)
  end.

(** [str(n)] for a Python [int] *)
Definition py_str_Z (z : Z) : string :=
  NilEmpty.string_of_int (Z.to_int z).

(* ------------------------------------------------------------------ *)
(** ** Connector, connection, Path *)

Definition DEFAULT_HTTPS_PORT : Z := 443.

(** [HTTPSConnector]: the fields [_server], [_port] and the base class's
    [initial_cwd]. *)
Record HTTPSConnector := {
  server : string;
  port : Z;
  initial_cwd : option string
}.

(** [https_connection]: its connector, the [is_open] flag and the
    current working directory kept by the base class [fs_connection]. *)
Record https_connection := {
  connector : HTTPSConnector;
  is_open : bool;
  cwd : option string
}.

(** attila's [Path]: a path string and the connection it is bound to. *)
Record Path := {
  path_str : string;
  path_conn : https_connection
}.

(** [fs_connection.check_path] (attila base class) on a string argument:
    the path string itself. *)
Definition check_path (self : https_connection) (p : string) : string := p.

(** [https_connection._get_url] with the two URL templates
    [HTTPS_URL_TEMPLATE] and [HTTPS_URL_PORT_TEMPLATE]. *)
Definition _get_url (self : https_connection) (path : string) : string :=
  if Z.eqb (port (connector self)) DEFAULT_HTTPS_PORT
  then "https://" ++ server (connector self) ++ path
  else "https://" ++ server (connector self) ++ ":"
       ++ py_str_Z (port (connector self)) ++ path.

(* ------------------------------------------------------------------ *)
(** ** [urllib.parse.urlparse] (CPython 3.12 splitting steps)

    The WHATWG preprocessing (leading C0-control/space stripping, removal
    of tab, CR and LF) and the unbalanced-bracket check on the netloc are
    modelled; the validation of a bracketed IPv6 host and the NFKC check on
    non-ASCII netlocs are not (bracketed hosts and non-ASCII text are out of
    the model's scope). *)

Definition is_ascii_alpha (c : ascii) : bool :=
  let n := nat_of_ascii c in
  (Nat.leb 65 n && Nat.leb n 90) || (Nat.leb 97 n && Nat.leb n 122).

Definition is_ascii_digit (c : ascii) : bool :=
  let n := nat_of_ascii c in Nat.leb 48 n && Nat.leb n 57.

(** [scheme_chars]: letters, digits and "+-." *)
Definition is_scheme_char (c : ascii) : bool :=
  is_ascii_alpha c || is_ascii_digit c || contains_char c "+-.".

(** [url.lstrip(_WHATWG_C0_CONTROL_OR_SPACE)] *)
Fixpoint lstrip_c0 (s : string) : string :=
  match s with
  | String a r => if Nat.leb (nat_of_ascii a) 32 then lstrip_c0 r else s
  | EmptyString => EmptyString
  end.

(** [url.replace(b, "")] for [b] in [_UNSAFE_URL_BYTES_TO_REMOVE] *)
Fixpoint remove_unsafe (s : string) : string :=
  match s with
  | EmptyString => EmptyString
  | String a r =>
      if contains_char a (String "009" (String "013" (String "010" EmptyString)))
      then remove_unsafe r else String a (remove_unsafe r)
  end.

(** [s.split(c, 1)] when [c in s]: the text before and after the first [c]. *)
Fixpoint split1 (c : ascii) (s : string) : option (string * string) :=
  match s with
  | EmptyString => None
  | String a r =>
      if char_eqb a c then Some (EmptyString, r)
      else match split1 c r with
           | Some (x, y) => Some (String a x, y)
           | None => None
           end
  end.

(** The scheme step of [urlsplit]: [i = url.find(':')]; the prefix is the
    scheme when [i > 0], its first character is an ASCII letter and all
    its characters are scheme characters. *)
Definition split_scheme (url : string) : string * string :=
  match split1 ":" url with
  | Some (String a _ as pre, rest) =>
      if is_ascii_alpha a && forallb is_scheme_char (list_ascii_of_string pre)
      then (lower pre, rest) else (EmptyString, url)
  | _ => (EmptyString, url)
  end.

(** [_splitnetloc(url, 2)] after the leading "//": the netloc runs to the
    first of "/?#". *)
Fixpoint split_netloc (s : string) : string * string :=
  match s with
  | EmptyString => (EmptyString, EmptyString)
  | String a r =>
      if contains_char a "/?#" then (EmptyString, s)
      else let (n, rest) := split_netloc r in (String a n, rest)
  end.

Record SplitResult := {
  scheme : string;
  netloc : string;
  url_path : string;
  query : string;
  fragment : string
}.

Definition urlsplit (url0 : string) : result SplitResult :=
  let url1 := remove_unsafe (lstrip_c0 url0) in
  let (sch, url2) := split_scheme url1 in
  let nl_rest :=
    match url2 with
    | String "/" (String "/" r) =>
        let (nl, rest) := split_netloc r in
        if (contains_char "[" nl && negb (contains_char "]" nl))
           || (contains_char "]" nl && negb (contains_char "[" nl))
        then None else Some (nl, rest)
    | _ => Some (EmptyString, url2)
    end in
  match nl_rest with
  | None => Err ValueError          (* "Invalid IPv6 URL" *)
  | Some (nl, url3) =>
      let (url4, frag) :=
        match split1 "#" url3 with Some p => p | None => (url3, EmptyString) end in
      let (url5, q) :=
        match split1 "?" url4 with Some p => p | None => (url4, EmptyString) end in
      Ok {| scheme := sch; netloc := nl; url_path := url5;
            query := q; fragment := frag |}
  end.

Record ParseResult := {
  p_scheme : string;
  p_netloc : string;
  p_path : string;
  p_params : string;
  p_query : string;
  p_fragment : string
}.

(** [uses_params] *)
Definition uses_params : list string :=
  [""; "ftp"; "hdl"; "prospero"; "http"; "imap"; "https"; "shttp"; "rtsp";
   "rtspu"; "sip"; "sips"; "mms"; "sftp"; "tel"].

(** [s.rsplit(c, 1)] when [c in s]. *)
Fixpoint rsplit1 (c : ascii) (s : string) : option (string * string) :=
  match s with
  | EmptyString => None
  | String a r =>
      match rsplit1 c r with
      | Some (x, y) => Some (String a x, y)
      | None => if char_eqb a c then Some (EmptyString, r) else None
      end
  end.

(** [_splitparams]: the params start at the first ";" after the last "/". *)
Definition _splitparams (url : string) : string * string :=
  match rsplit1 "/" url with
  | Some (before, after) =>
      match split1 ";" after with
      | Some (x, y) => (before ++ "/" ++ x, y)
      | None => (url, EmptyString)
      end
  | None =>
      match split1 ";" url with
      | Some (x, y) => (x, y)
      | None => (url, EmptyString)
      end
  end.

Definition urlparse (url : string) : result ParseResult :=
  match urlsplit url with
  | Err e => Err e
  | Ok r =>
      let (p, params) :=
        if existsb (String.eqb (scheme r)) uses_params && contains_char ";" (url_path r)
        then _splitparams (url_path r) else (url_path r, EmptyString) in
      Ok {| p_scheme := scheme r; p_netloc := netloc r; p_path := p;
            p_params := params; p_query := query r; p_fragment := fragment r |}
  end.

(* ------------------------------------------------------------------ *)
(** ** [posixpath.basename] and [posixpath.dirname] *)

(** [i = p.rfind('/') + 1]: [(p[:i], p[i:])]. *)
Definition split_at_last_sep (p : string) : string * string :=
  match rsplit1 "/" p with
  | Some (x, y) => (x ++ "/", y)
  | None => (EmptyString, p)
  end.

Definition basename (p : string) : string := snd (split_at_last_sep p).

Fixpoint all_sep (s : string) : bool :=
  match s with
  | EmptyString => true
  | String a r => char_eqb a "/" && all_sep r
  end.

(** [s.rstrip('/')] *)
Fixpoint rstrip_sep (s : string) : string :=
  match s with
  | EmptyString => EmptyString
  | String a r =>
      let r' := rstrip_sep r in
      match r' with
      | EmptyString => if char_eqb a "/" then EmptyString else String a EmptyString
      | _ => String a r'
      end
  end.

Definition dirname (p : string) : string :=
  let head := fst (split_at_last_sep p) in
  match head with
  | EmptyString => head
  | _ => if all_sep head then head else rstrip_sep head
  end.

(* ------------------------------------------------------------------ *)
(** ** The [requests] transport and the local file system *)

Definition req_url (r : request) : string :=
  match r with GET u | PUT u _ | DELETE u => u end.

(** [s[len(p):]] when [s.startswith(p)] *)
Fixpoint after_prefix (p s : string) : option string :=
  match p, s with
  | EmptyString, _ => Some s
  | String a p', String b s' => if char_eqb a b then after_prefix p' s' else None
  | String _ _, EmptyString => None
  end.

(** requests' URL preparation: a URL is sent only when it has an http or
    https scheme and a non-empty authority; anything else is refused before
    a request goes out (MissingSchema, InvalidSchema, InvalidURL). *)
Definition requests_accepts (u : string) : bool :=
  let l := lower u in
  match after_prefix "https://" l, after_prefix "http://" l with
  | Some r, _ | None, Some r => negb (String.eqb (fst (split_netloc r)) "")
  | None, None => false
  end.

Definition set_sent (w : world) (s : list request) : world :=
  {| w_server := w_server w; w_sent := s; w_files := w_files w;
     w_temp_path := w_temp_path w; w_warnings := w_warnings w |}.

Definition set_files (w : world) (f : list (string * string)) : world :=
  {| w_server := w_server w; w_sent := w_sent w; w_files := f;
     w_temp_path := w_temp_path w; w_warnings := w_warnings w |}.

Definition set_warnings (w : world) (ws : list string) : world :=
  {| w_server := w_server w; w_sent := w_sent w; w_files := w_files w;
     w_temp_path := w_temp_path w; w_warnings := ws |}.

(** [requests.get] / [requests.put] / [requests.delete] *)
Definition send (r : request) : M response :=
  fun w => if requests_accepts (req_url r)
           then (Ok (w_server w r), set_sent w (w_sent w ++ [r]))
           else (Err InvalidURL, w).

(** [Response.raise_for_status]: 4xx and 5xx raise. *)
Definition is_error_status (code : Z) : bool := (400 <=? code)%Z && (code <? 600)%Z.

Definition raise_for_status (r : response) : M unit :=
  if is_error_status (status_code r) then raise (HTTPError (status_code r)) else ret tt.

(** [Response.ok] *)
Definition ok (r : response) : bool := negb (is_error_status (status_code r)).

Fixpoint lookup_file (fs : list (string * string)) (p : string) : option string :=
  match fs with
  | [] => None
  | (q, d) :: fs' => if String.eqb p q then Some d else lookup_file fs' p
  end.

(** [open(p, 'rb').read()] *)
Definition read_local (p : string) : M string :=
  fun w => match lookup_file (w_files w) p with
           | Some d => (Ok d, w)
           | None => (Err OSError, w)
           end.

(** [open(p, 'wb')] and writing [d]: the file's content becomes [d]. *)
Definition write_local (p : string) (d : string) : M unit :=
  fun w => (Ok tt, set_files w ((p, d) :: List.filter (fun e => negb (String.eqb (fst e) p)) (w_files w))).

(** [str(abs(local_fs_connection().get_temp_file_path(hint)))] *)
Definition get_temp_file_path (hint : string) : M string :=
  fun w => (Ok (w_temp_path w hint), w).

Definition lift {A} (r : result A) : M A :=
  match r with Ok a => ret a | Err e => raise e end.

Definition warn (msg : string) : M unit :=
  fun w => (Ok tt, set_warnings w (w_warnings w ++ [msg])).

(* ------------------------------------------------------------------ *)
(** ** [https_connection] methods *)

Definition set_is_open (self : https_connection) (b : bool) : https_connection :=
  {| connector := connector self; is_open := b; cwd := cwd self |}.

Definition name (self : https_connection) (path : string) : result string :=
  let path := check_path self path in
  match urlparse path with
  | Err e => Err e
  | Ok r => Ok (basename (p_path r))    (* Remove the query string, etc. *)
  end.

Definition dir (self : https_connection) (path : string) : result (option Path) :=
  let path := check_path self path in
  match urlparse path with
  | Err e => Err e
  | Ok r =>
      let raw_path := p_path r in
      let dir_path := dirname raw_path in
      if String.eqb dir_path raw_path then Ok None
      else Ok (Some {| path_str := dir_path; path_conn := self |})
  end.

(** [close] returns the connection with its updated [_is_open] flag. *)
Definition close (self : https_connection) : M https_connection :=
  _ <- (if is_open self then ret tt else warn "Double-closing HTTPS connection.") ;;
  ret (set_is_open self false).

Definition _download (self : https_connection) (remote_path local_path : string) : M unit :=
  _ <- assert_ (is_open self) ;;
  let remote_path := check_path self remote_path in
  response <- send (GET (_get_url self remote_path)) ;;
  _ <- raise_for_status response ;;
  write_local local_path (content response).

(** The [local_path] argument of [_upload]: a raw string, or a [Path]
    (flagged by whether its connection is a [local_fs_connection]). *)
Inductive local_arg :=
| LocalStr (s : string)
| LocalPath (on_local_fs : bool) (s : string).

Definition _upload (self : https_connection) (local_path : local_arg) (remote_path : string) : M unit :=
  _ <- assert_ (is_open self) ;;
  local_path <- match local_path with
                | LocalStr s => ret s
                | LocalPath b s => _ <- assert_ b ;; ret s
                end ;;
  let remote_path := check_path self remote_path in
  local_copy <- read_local local_path ;;
  response <- send (PUT remote_path local_copy) ;;
  raise_for_status response.

(** The write-back of a proxy file: the bound method [self._upload]. *)
Inductive writeback := Upload (self : https_connection).

Definition run_writeback (wb : writeback) (local_path : string) (remote_path : string) : M unit :=
  match wb with Upload self => _upload self (LocalStr local_path) remote_path end.

(** attila's [ProxyFile], with the fields this module sets (the I/O
    options [buffering], [encoding], ... are passed through unchanged). *)
Record ProxyFile := {
  pf_path : Path;
  pf_mode : string;
  pf_proxy_path : string;
  pf_writeback : option writeback
}.

Definition in_modes (m : string) (ms : list string) : bool := existsb (String.eqb m) ms.

Definition open_file (self : https_connection) (path mode : string) : M ProxyFile :=
  _ <- assert_ (is_open self) ;;
  let mode := lower mode in
  let path := check_path self path in
  hint <- lift (name self path) ;;
  temp_path <- get_temp_file_path hint ;;
  _ <- (if negb (in_modes mode ["w"; "wb"]) then _download self path temp_path else ret tt) ;;
  let writeback := if in_modes mode ["r"; "rb"] then None else Some (Upload self) in
  ret {| pf_path := {| path_str := path; path_conn := self |}; pf_mode := mode;
         pf_proxy_path := temp_path; pf_writeback := writeback |}.

Definition list (self : https_connection) (path pattern : string) : M (Datatypes.list string) :=
  raise OperationNotSupportedError.

Definition size (self : https_connection) (path : string) : M Z :=
  raise OperationNotSupportedError.

Definition modified_time (self : https_connection) (path : string) : M Z :=
  raise OperationNotSupportedError.

Definition make_dir (self : https_connection) (path : string)
  (overwrite clear fill : bool) (check_only : option bool) : M unit :=
  raise OperationNotSupportedError.

Definition rename (self : https_connection) (path new_name : string) : M unit :=
  raise OperationNotSupportedError.

Definition is_dir (self : https_connection) (path : string) : bool := false.

Definition is_file (self : https_connection) (path : string) : M bool :=
  let path := check_path self path in
  response <- send (GET (_get_url self path)) ;;
  ret (ok response).

Definition remove (self : https_connection) (path : string) : M unit :=
  _ <- assert_ (is_open self) ;;
  let path := check_path self path in
  if is_dir self path then raise OperationNotSupportedError
  else (response <- send (DELETE (_get_url self path)) ;;
        raise_for_status response).

(** [s.lstrip(chars)] and [s.strip(chars)] *)
Fixpoint lstrip_chars (cs s : string) : string :=
  match s with
  | String a r => if contains_char a cs then lstrip_chars cs r else s
  | EmptyString => EmptyString
  end.

Fixpoint rstrip_chars (cs s : string) : string :=
  match s with
  | EmptyString => EmptyString
  | String a r =>
      match rstrip_chars cs r with
      | EmptyString => if contains_char a cs then EmptyString else String a EmptyString
      | r' => String a r'
      end
  end.

Definition strip_chars (cs s : string) : string := rstrip_chars cs (lstrip_chars cs s).

Definition join (self : https_connection) (path_elements : Datatypes.list string) : Path :=
  match path_elements with
  | [] => {| path_str := ""; path_conn := self |}
  | e0 :: _ =>
      let starting_slash := starts_with "/" e0 in
      let elems := map (fun e => strip_chars "/\" (check_path self e)) path_elements in
      let elems := if starting_slash then "" :: elems else elems in
      {| path_str := String.concat "/" elems; path_conn := self |}
  end.

(* ------------------------------------------------------------------ *)
(** ** [HTTPSConnector.load_url] *)

(** ASCII characters for which [str.isspace()] holds. *)
Definition is_py_space (c : ascii) : bool :=
  let n := nat_of_ascii c in
  (Nat.leb 9 n && Nat.leb n 13) || (Nat.leb 28 n && Nat.leb n 32).

Fixpoint lstrip_ws (s : string) : string :=
  match s with
  | String a r => if is_py_space a then lstrip_ws r else s
  | EmptyString => EmptyString
  end.

Fixpoint rstrip_ws (s : string) : string :=
  match s with
  | EmptyString => EmptyString
  | String a r =>
      match rstrip_ws r with
      | EmptyString => if is_py_space a then EmptyString else String a EmptyString
      | r' => String a r'
      end
  end.

Definition digit_val (c : ascii) : Z := Z.of_nat (nat_of_ascii c - 48).

(** Decimal digits, a single "_" allowed between two digits. *)
Fixpoint dec_digits (s : string) (acc : Z) : option Z :=
  match s with
  | EmptyString => Some acc
  | String c r =>
      if is_ascii_digit c then dec_digits r (acc * 10 + digit_val c)%Z
      else if char_eqb c "_" then
        match r with
        | String d r' => if is_ascii_digit d then dec_digits r' (acc * 10 + digit_val d)%Z else None
        | EmptyString => None
        end
      else None
  end.

Definition unsigned_int (s : string) : option Z :=
  match s with
  | String c _ => if is_ascii_digit c then dec_digits s 0 else None
  | EmptyString => None
  end.

(** [int(s)] on an ASCII string; [None] is the [ValueError]. *)
Definition py_int (s : string) : option Z :=
  match rstrip_ws (lstrip_ws s) with
  | String "-" r => option_map Z.opp (unsigned_int r)
  | String "+" r => unsigned_int r
  | t => unsigned_int t
  end.

(** [s.split(c)] *)
Fixpoint split_all (c : ascii) (s : string) : Datatypes.list string :=
  match s with
  | EmptyString => [EmptyString]
  | String a r =>
      if char_eqb a c then EmptyString :: split_all c r
      else match split_all c r with
           | x :: xs => String a x :: xs
           | [] => [String a EmptyString]
           end
  end.

(** [FSConnector.connect]: a new connection bound to the connector, not
    yet opened. *)
Definition connect (c : HTTPSConnector) : https_connection :=
  {| connector := c; is_open := false; cwd := None |}.

Section LoadURL.

(** attila's [strings.split_port(server, default_port)], external to this
    repository: the module is modelled for every behaviour of it. *)
Variable split_port : string -> Z -> result (string * Z).

(** [HTTPSConnector.__init__]; [verify_type(server, str, non_empty=True)]
    refuses the empty string. *)
Definition HTTPSConnector_init (server_arg : string) (initial_cwd : option string)
  : result HTTPSConnector :=
  if String.eqb server_arg "" then Err ValueError
  else match split_port server_arg DEFAULT_HTTPS_PORT with
       | Err e => Err e
       | Ok (s, p) => Ok {| server := s; port := p; initial_cwd := initial_cwd |}
       end.

(** The URL actually parsed by [load_url]. *)
Definition with_scheme (url : string) : string :=
  if contains_sub "://" url then url else "https://" ++ url.

Definition load_url (url : string) : result Path :=
  let url := with_scheme url in
  match urlparse url with
  | Err e => Err e
  | Ok r =>
      if negb (String.eqb (p_params r) "" && String.eqb (p_fragment r) "") then Err AssertionError
      else if negb (String.eqb (lower (p_scheme r)) "https") then Err AssertionError
      else if contains_char "@" (p_netloc r) then Err AssertionError
      else
        let address := p_netloc r in
        let server_port :=
          if contains_char ":" address then
            match split_all ":" address with
            | [s; pt] => match py_int pt with
                         | Some n => Ok (s, n)
                         | None => Err ValueError
                         end
            | _ => Err ValueError          (* tuple unpacking *)
            end
          else Ok (address, DEFAULT_HTTPS_PORT) in
        match server_port with
        | Err e => Err e
        | Ok (s, n) =>
            match HTTPSConnector_init (s ++ ":" ++ py_str_Z n) None with
            | Err e => Err e
            | Ok c => Ok {| path_str := p_path r ++ "?" ++ p_query r;
                            path_conn := connect c |}
            end
        end
  end.

End LoadURL.

(* ------------------------------------------------------------------ *)
(** ** Concrete instances used by the examples *)

(** A [split_port] instance: "host:port" with a decimal port, otherwise
    the whole string with the default port. *)
Definition split_port_example (s : string) (d : Z) : result (string * Z) :=
  match split_all ":" s with
  | [h; p] => match py_int p with Some n => Ok (h, n) | None => Err ValueError end
  | _ => Ok (s, d)
  end.

Definition example_connector (p : Z) : HTTPSConnector :=
  {| server := "example.com"; port := p; initial_cwd := None |}.

Definition open_conn (p : Z) : https_connection :=
  {| connector := example_connector p; is_open := true; cwd := None |}.

Definition closed_conn (p : Z) : https_connection :=
  {| connector := example_connector p; is_open := false; cwd := None |}.

(** A server answering 200 with body "remote" to every request, one local
    file "/tmp/x" holding "data", temp files under "/tmp/". *)
Definition w0 : world :=
  {| w_server := fun _ => {| status_code := 200; content := "remote" |};
     w_sent := [];
     w_files := [("/tmp/x", "data")];
     w_temp_path := fun h => "/tmp/" ++ h;
     w_warnings := [] |}.

(* ================================================================== *)
(** * Properties *)

(** ** C1 *)

(** C1 (code_bug): [_upload] hands the remote path itself to
    [requests.put], not the URL [_get_url] builds from it.  With host
    example.com, port 443, local file "/tmp/x" and remote path "/x", no PUT
    to https://example.com/x is issued: requests refuses the scheme-less
    URL "/x" and nothing is sent. *)
Theorem upload_puts_raw_remote_path :
  _get_url (open_conn 443) "/x" = "https://example.com/x" /\
  _upload (open_conn 443) (LocalStr "/tmp/x") "/x" w0 = (Err InvalidURL, w0).
Proof. split; reflexivity. Qed.

(** ** C3 *)

(** C3: the URL is "https://" + host + path for the default port 443, and
    "https://" + host + ":" + str(port) + path for any other port. *)
Theorem get_url_default_port_elision :
  forall (c : https_connection) (p : string),
    (port (connector c) = 443%Z ->
       _get_url c p = "https://" ++ server (connector c) ++ p) /\
    (port (connector c) <> 443%Z ->
       _get_url c p = "https://" ++ server (connector c) ++ ":"
                      ++ py_str_Z (port (connector c)) ++ p).
Proof.
  intros c p. unfold _get_url, DEFAULT_HTTPS_PORT. split; intro H.
  - rewrite H. reflexivity.
  - apply Z.eqb_neq in H. rewrite H. reflexivity.
Qed.

Lemma get_url_default_port_elision_witness :
  _get_url (open_conn 443) "/x" = "https://example.com/x" /\
  _get_url (open_conn 8443) "/x" = "https://example.com:8443/x".
Proof.
  split.
  - apply (proj1 (get_url_default_port_elision (open_conn 443) "/x")). reflexivity.
  - apply (proj2 (get_url_default_port_elision (open_conn 8443) "/x")). discriminate.
Defined.

(** ** C6 *)

(** C6: [close] never raises; on a closed connection it only adds the
    "Double-closing" warning; afterwards the connection is not open, and
    nothing else changes. *)
Theorem close_never_raises :
  forall (c : https_connection) (w : world),
    exists c' w',
      close c w = (Ok c', w') /\
      is_open c' = false /\ connector c' = connector c /\ cwd c' = cwd c /\
      w_sent w' = w_sent w /\ w_files w' = w_files w /\
      w_warnings w' = (w_warnings w ++
        (if is_open c then [] else ["Double-closing HTTPS connection."]))%list.
Proof.
  intros c w. unfold close, bind, ret, warn.
  destruct (is_open c); simpl.
  - eexists _, _. split; [reflexivity|]. simpl. rewrite app_nil_r. repeat split.
  - eexists _, _. split; [reflexivity|]. repeat split.
Qed.

(** ** C7 *)

(** C7: [list], [size], [modified_time], [make_dir] and [rename] raise
    [OperationNotSupportedError] in every state and leave the world
    unchanged; [is_dir] is always false. *)
Theorem unsupported_operations :
  forall (c : https_connection) (p q : string) (w : world)
         (overwrite clear fill : bool) (check_only : option bool),
    list c p q w = (Err OperationNotSupportedError, w) /\
    size c p w = (Err OperationNotSupportedError, w) /\
    modified_time c p w = (Err OperationNotSupportedError, w) /\
    make_dir c p overwrite clear fill check_only w = (Err OperationNotSupportedError, w) /\
    rename c p q w = (Err OperationNotSupportedError, w) /\
    is_dir c p = false.
Proof. intros. repeat split. Qed.

(** ** C10 *)

(** C10: [is_file] has no [is_open] precondition: on a closed connection
    it issues the GET to the path's URL and returns [Response.ok], and it
    never fails with an assertion error; [remove], [open_file],
    [_download] and [_upload] on a closed connection fail their
    [assert self.is_open]. *)
Theorem is_file_without_open_precondition :
  forall (c : https_connection) (p : string) (w : world),
    is_open c = false ->
    (requests_accepts (_get_url c p) = true ->
       is_file c p w =
         (Ok (ok (w_server w (GET (_get_url c p)))),
          set_sent w (w_sent w ++ [GET (_get_url c p)])%list)) /\
    fst (is_file c p w) <> Err AssertionError /\
    remove c p w = (Err AssertionError, w) /\
    (forall mode, open_file c p mode w = (Err AssertionError, w)) /\
    (forall l, _download c p l w = (Err AssertionError, w)) /\
    (forall l, _upload c l p w = (Err AssertionError, w)).
Proof.
  intros c p w Hc.
  unfold remove, open_file, _download, _upload, assert_, bind, raise.
  rewrite Hc. repeat split.
  - intro Ha. unfold is_file, check_path, bind, send. simpl. rewrite Ha. reflexivity.
  - unfold is_file, check_path, bind, send, ret.
    destruct (requests_accepts (req_url (GET (_get_url c p)))); simpl; discriminate.
Qed.

Lemma is_file_without_open_precondition_witness :
  is_open (closed_conn 443) = false /\
  is_file (closed_conn 443) "/x" w0 =
    (Ok true, set_sent w0 [GET "https://example.com/x"]).
Proof.
  split; [reflexivity|].
  apply (proj1 (is_file_without_open_precondition (closed_conn 443) "/x" w0 eq_refl)).
  reflexivity.
Defined.

(** ** C2 *)

(** C2 (counterexample): for the path "//[x", whose authority part has an
    unbalanced bracket, [self.name(path)] (urlparse) raises [ValueError]
    before the download: [open_file] in mode "r" issues no GET. *)
Lemma open_file_name_error_no_download :
  open_file (open_conn 443) "//[x" "r" w0 = (Err ValueError, w0) /\ w_sent w0 = [].
Proof. split; reflexivity. Qed.

(** C2 (amended): on an open connection and a path whose name urlparse
    computes, [open_file] lower-cases the mode; for "w"/"wb" it downloads
    nothing and returns a handle with the upload write-back; for any other
    mode it first runs [_download] into the temp file named after the path
    and, when that succeeds, returns a handle whose write-back is absent
    exactly for "r"/"rb". *)
Theorem open_file_mode_dispatch :
  forall (c : https_connection) (path mode : string) (w : world) (hint : string),
    is_open c = true ->
    name c path = Ok hint ->
    let m := lower mode in
    let tmp := w_temp_path w hint in
    let handle wb := {| pf_path := {| path_str := path; path_conn := c |};
                        pf_mode := m; pf_proxy_path := tmp; pf_writeback := wb |} in
    (in_modes m ["w"; "wb"] = true ->
       open_file c path mode w = (Ok (handle (Some (Upload c))), w)) /\
    (in_modes m ["w"; "wb"] = false ->
       open_file c path mode w =
         match _download c path tmp w with
         | (Ok _, w') =>
             (Ok (handle (if in_modes m ["r"; "rb"] then None else Some (Upload c))), w')
         | (Err e, w') => (Err e, w')
         end).
Proof.
  intros c path mode w hint Ho Hn m tmp handle.
  unfold check_path in Hn.
  unfold open_file, assert_, check_path, lift, get_temp_file_path.
  rewrite Ho, Hn. unfold bind, ret. cbv beta iota.
  fold tmp m.
  split; intro Hm.
  - assert (Hr : in_modes m ["r"; "rb"] = false).
    { unfold in_modes in *. simpl in *.
      destruct (String.eqb m "w") eqn:E1.
      + apply String.eqb_eq in E1. rewrite E1. reflexivity.
      + destruct (String.eqb m "wb") eqn:E2; [|discriminate].
        apply String.eqb_eq in E2. rewrite E2. reflexivity. }
    rewrite Hm, Hr. reflexivity.
  - rewrite Hm. cbv beta iota delta [negb].
    destruct (_download c path tmp w) as [[u|e] w']; reflexivity.
Qed.

Lemma open_file_mode_dispatch_witness :
  is_open (open_conn 443) = true /\ name (open_conn 443) "/f" = Ok "f" /\
  open_file (open_conn 443) "/f" "W" w0 =
    (Ok {| pf_path := {| path_str := "/f"; path_conn := open_conn 443 |};
           pf_mode := "w"; pf_proxy_path := "/tmp/f";
           pf_writeback := Some (Upload (open_conn 443)) |}, w0).
Proof.
  split; [reflexivity|]. split; [reflexivity|].
  apply (proj1 (open_file_mode_dispatch (open_conn 443) "/f" "W" w0 "f" eq_refl eq_refl)).
  reflexivity.
Defined.

(** ** Facts about the string helpers and [urlparse] *)

Lemma append_assoc (a b c : string) : a ++ (b ++ c) = (a ++ b) ++ c.
Proof. induction a as [|x a IH]; simpl; [reflexivity|]. rewrite IH. reflexivity. Qed.

Lemma append_nil_r (a : string) : a ++ "" = a.
Proof. induction a as [|x a IH]; simpl; [reflexivity|]. rewrite IH. reflexivity. Qed.

Lemma contains_char_app c a b :
  contains_char c (a ++ b) = contains_char c a || contains_char c b.
Proof. induction a as [|x a IH]; simpl; [reflexivity|]. rewrite IH, orb_assoc. reflexivity. Qed.

Lemma split1_some c s x y :
  split1 c s = Some (x, y) -> s = x ++ String c y /\ contains_char c x = false.
Proof.
  revert x y. induction s as [|a s IH]; intros x y H; simpl in H; [discriminate|].
  destruct (char_eqb a c) eqn:E.
  - injection H as <- <-. apply Ascii.eqb_eq in E. subst. split; reflexivity.
  - destruct (split1 c s) as [[x' y']|]; [|discriminate].
    injection H as <- <-. destruct (IH x' y' eq_refl) as [-> Hx].
    split; [reflexivity|]. simpl. rewrite E, Hx. reflexivity.
Qed.

Lemma split1_none c s : split1 c s = None -> contains_char c s = false.
Proof.
  induction s as [|a s IH]; simpl; intro H; [reflexivity|].
  destruct (char_eqb a c); [discriminate|].
  destruct (split1 c s) as [[x y]|]; [discriminate|]. rewrite IH; reflexivity.
Qed.

Lemma rsplit1_some c s x y : rsplit1 c s = Some (x, y) -> s = x ++ String c y.
Proof.
  revert x y. induction s as [|a s IH]; intros x y H; simpl in H; [discriminate|].
  destruct (rsplit1 c s) as [[x' y']|].
  - injection H as <- <-. rewrite (IH x' y' eq_refl). reflexivity.
  - destruct (char_eqb a c) eqn:E; [|discriminate].
    injection H as <- <-. apply Ascii.eqb_eq in E. subst. reflexivity.
Qed.

Lemma splitparams_prefix url : exists t, url = fst (_splitparams url) ++ t.
Proof.
  unfold _splitparams.
  destruct (rsplit1 "/" url) as [[b a]|] eqn:E.
  - apply rsplit1_some in E.
    destruct (split1 ";" a) as [[x y]|] eqn:E2.
    + apply split1_some in E2 as [-> _]. exists (String ";" y). simpl.
      rewrite E, <- append_assoc. reflexivity.
    + exists "". simpl. rewrite append_nil_r. reflexivity.
  - destruct (split1 ";" url) as [[x y]|] eqn:E2.
    + apply split1_some in E2 as [-> _]. exists (String ";" y). reflexivity.
    + exists "". simpl. rewrite append_nil_r. reflexivity.
Qed.

Lemma urlsplit_error u e : urlsplit u = Err e -> e = ValueError.
Proof.
  unfold urlsplit. cbv zeta. destruct (split_scheme _) as [sch url2].
  match goal with |- (match ?X with Some _ => _ | None => _ end) = _ -> _ => destruct X as [[nl url3]|] end.
  - destruct (match split1 "#" url3 with Some p => p | None => (url3, EmptyString) end)
      as [url4 frag].
    destruct (match split1 "?" url4 with Some p => p | None => (url4, EmptyString) end).
    discriminate.
  - congruence.
Qed.

Lemma urlsplit_path u r :
  urlsplit u = Ok r ->
  contains_char "?" (url_path r) = false /\ contains_char "#" (url_path r) = false.
Proof.
  unfold urlsplit. cbv zeta. destruct (split_scheme _) as [sch url2].
  match goal with |- (match ?X with Some _ => _ | None => _ end) = _ -> _ => destruct X as [[nl url3]|] end;
    [|discriminate].
  assert (H4 : forall url4 frag,
             (match split1 "#" url3 with Some p => p | None => (url3, EmptyString) end)
             = (url4, frag) -> contains_char "#" url4 = false).
  { intros url4 frag H. destruct (split1 "#" url3) as [[a b]|] eqn:E.
    - injection H as <- <-. apply (split1_some _ _ _ _ E).
    - injection H as <- <-. apply split1_none, E. }
  destruct (match split1 "#" url3 with Some p => p | None => (url3, EmptyString) end)
    as [url4 frag] eqn:E4.
  specialize (H4 _ _ eq_refl).
  destruct (split1 "?" url4) as [[a b]|] eqn:E5; intro H; injection H as <-; simpl.
  - apply split1_some in E5 as [-> Ha]. rewrite contains_char_app in H4.
    apply orb_false_iff in H4 as [H4 _]. split; assumption.
  - split; [apply split1_none, E5 | exact H4].
Qed.

Lemma urlparse_path u r :
  urlparse u = Ok r ->
  contains_char "?" (p_path r) = false /\ contains_char "#" (p_path r) = false.
Proof.
  unfold urlparse. destruct (urlsplit u) as [s|e] eqn:E; [|discriminate].
  apply urlsplit_path in E as [Hq Hf].
  assert (Hpre : exists t, url_path s =
            fst (if existsb (String.eqb (scheme s)) uses_params && contains_char ";" (url_path s)
                 then _splitparams (url_path s) else (url_path s, EmptyString)) ++ t).
  { destruct (_ && _).
    - apply splitparams_prefix.
    - exists "". simpl. rewrite append_nil_r. reflexivity. }
  destruct (if _ && _ then _ else _) as [p params]. intro H; injection H as <-. simpl.
  destruct Hpre as [t Ht]. simpl in Ht. rewrite Ht, contains_char_app in Hq, Hf.
  apply orb_false_iff in Hq as [Hq _]. apply orb_false_iff in Hf as [Hf _]. split; assumption.
Qed.

Lemma urlparse_error u e : urlparse u = Err e -> e = ValueError.
Proof.
  unfold urlparse. destruct (urlsplit u) as [s|e'] eqn:E.
  - destruct (if _ && _ then _ else _). discriminate.
  - intro H; injection H as <-. apply (urlsplit_error u), E.
Qed.

(** ** C4 *)

(** C4 (counterexample): in "https://[u@h/x" the authority "[u@h" holds
    user-info, but urlparse refuses the unbalanced "[" with [ValueError]
    before [load_url]'s own assertions run. *)
Lemma load_url_bracket_userinfo_value_error :
  split_netloc "[u@h/x" = ("[u@h", "/x") /\ contains_char "@" "[u@h" = true /\
  load_url split_port_example "https://[u@h/x" = Err ValueError.
Proof. repeat split; reflexivity. Qed.

(** C4 (amended): when urlparse accepts the (https://-prefixed) URL and
    its scheme is not https, or it has params or a fragment, or its netloc
    contains "@", [load_url] fails with its own assertion error (the
    spec's MalformedURLError); when urlparse refuses the URL, [load_url]
    fails with urlparse's [ValueError].  In no case is a Path produced. *)
Theorem load_url_rejects :
  forall (split_port : string -> Z -> result (string * Z)) (url : string),
    (forall r, urlparse (with_scheme url) = Ok r ->
       lower (p_scheme r) <> "https" \/ p_params r <> "" \/ p_fragment r <> "" \/
       contains_char "@" (p_netloc r) = true ->
       load_url split_port url = Err AssertionError) /\
    (forall e, urlparse (with_scheme url) = Err e ->
       e = ValueError /\ load_url split_port url = Err ValueError).
Proof.
  intros sp url. split.
  - intros r Hr Hbad. unfold load_url. rewrite Hr.
    destruct (String.eqb (p_params r) "") eqn:E1;
      destruct (String.eqb (p_fragment r) "") eqn:E2; simpl; try reflexivity.
    destruct (String.eqb (lower (p_scheme r)) "https") eqn:E3; simpl; try reflexivity.
    destruct (contains_char "@" (p_netloc r)) eqn:E4; try reflexivity.
    apply String.eqb_eq in E1, E2, E3. exfalso.
    destruct Hbad as [H|[H|[H|H]]]; congruence.
  - intros e He. pose proof (urlparse_error _ _ He) as ->.
    split; [reflexivity|]. unfold load_url. rewrite He. reflexivity.
Qed.

Lemma load_url_rejects_witness :
  load_url split_port_example "ftp://example.com/x" = Err AssertionError /\
  load_url split_port_example "example.com/x#frag" = Err AssertionError.
Proof.
  split.
  - eapply (proj1 (load_url_rejects split_port_example "ftp://example.com/x")).
    + reflexivity.
    + left. simpl. discriminate.
  - eapply (proj1 (load_url_rejects split_port_example "example.com/x#frag")).
    + reflexivity.
    + right. right. left. simpl. discriminate.
Defined.

(** ** C5 *)

(** C5 (counterexample): [join] strips backslashes as well as slashes:
    joining the single segment "a\" gives "a", where stripping only "/"
    would keep "a\". *)
Lemma join_strips_backslash :
  path_str (join (open_conn 443) ["a\"]) = "a" /\ strip_chars "/" "a\" = "a\".
Proof. split; reflexivity. Qed.

(** C5 (amended): [join] of no segment is the empty Path bound to the
    connection; otherwise each segment has its leading and trailing "/"
    and "\" characters stripped, an empty segment is prepended exactly
    when the first segment starts with "/", and the segments are joined
    with "/"; so join("/a", "b/", "/c") = "/a/b/c". *)
Theorem join_strips_segments :
  forall c : https_connection,
    join c [] = {| path_str := ""; path_conn := c |} /\
    (forall (e0 : string) (es : Datatypes.list string),
       join c (e0 :: es) =
         {| path_str := String.concat "/"
              ((if starts_with "/" e0 then [""] else [])
               ++ map (strip_chars "/\") (e0 :: es))%list;
            path_conn := c |}) /\
    path_str (join c ["/a"; "b/"; "/c"]) = "/a/b/c".
Proof.
  intro c. split; [reflexivity|]. split; [|reflexivity].
  intros e0 es. unfold join, check_path. destruct (starts_with "/" e0); reflexivity.
Qed.

(** ** C8 *)

(** C8 (counterexample): [name] drops the fragment too, not only the
    query: name("/a/b#c") is "b", while the last segment of "/a/b#c" (which
    has no query) is "b#c". *)
Lemma name_drops_fragment :
  name (open_conn 443) "/a/b#c" = Ok "b" /\ basename "/a/b#c" = "b#c".
Proof. split; reflexivity. Qed.

(** C8 (amended): [name] and [dir] work on the path component urlparse
    extracts (no query, no fragment, no params, no "//" authority):
    [name] is its posix basename; [dir] is its posix dirname bound to the
    same connection, or None when the dirname equals that component;
    urlparse's error propagates.  name("/a/b/c?q=1") = "c",
    dir("/a/b/c?q=1") = "/a/b", dir("/") = None. *)
Theorem name_dir_on_urlparse_path :
  forall (c : https_connection) (p : string),
    (forall r, urlparse p = Ok r ->
       contains_char "?" (p_path r) = false /\ contains_char "#" (p_path r) = false /\
       name c p = Ok (basename (p_path r)) /\
       dir c p = (if String.eqb (dirname (p_path r)) (p_path r) then Ok None
                  else Ok (Some {| path_str := dirname (p_path r); path_conn := c |}))) /\
    (forall e, urlparse p = Err e -> name c p = Err e /\ dir c p = Err e) /\
    name c "/a/b/c?q=1" = Ok "c" /\
    dir c "/a/b/c?q=1" = Ok (Some {| path_str := "/a/b"; path_conn := c |}) /\
    dir c "/" = Ok None.
Proof.
  intros c p. split; [|split; [|repeat split]].
  - intros r Hr. destruct (urlparse_path _ _ Hr) as [Hq Hf].
    split; [exact Hq|]. split; [exact Hf|].
    unfold name, dir, check_path. rewrite Hr. split; reflexivity.
  - intros e He. unfold name, dir, check_path. rewrite He. split; reflexivity.
Qed.

Lemma name_dir_on_urlparse_path_witness :
  name (open_conn 443) "/a/b;p?q" = Ok "b".
Proof.
  destruct (proj1 (name_dir_on_urlparse_path (open_conn 443) "/a/b;p?q") _ eq_refl)
    as [_ [_ [Hn _]]].
  exact Hn.
Defined.

(** ** C9 *)

Definition example_loaded_path : Path :=
  {| path_str := "/x?"; path_conn := connect (example_connector 443) |}.

(** C9: a Path returned by [load_url] has the string path + "?" + query of
    the parsed URL, so a URL without a query gives a trailing "?". *)
Theorem load_url_path_query :
  forall (split_port : string -> Z -> result (string * Z)) (url : string) (p : Path),
    load_url split_port url = Ok p ->
    exists r, urlparse (with_scheme url) = Ok r /\
      path_str p = p_path r ++ "?" ++ p_query r /\
      (p_query r = "" -> path_str p = p_path r ++ "?").
Proof.
  intros sp url p H. unfold load_url in H.
  destruct (urlparse (with_scheme url)) as [r|e]; [|discriminate].
  exists r. split; [reflexivity|].
  assert (Hp : path_str p = p_path r ++ "?" ++ p_query r).
  { destruct (_ && _); [|discriminate]. simpl in H.
    destruct (String.eqb (lower (p_scheme r)) "https"); [|discriminate]. simpl in H.
    destruct (contains_char "@" (p_netloc r)); [discriminate|].
    cbv zeta in H.
    destruct (if contains_char ":" (p_netloc r) then _ else _) as [[s n]|e]; [|discriminate].
    destruct (HTTPSConnector_init sp _ _) as [c|e]; [|discriminate].
    injection H as <-. reflexivity. }
  split; [exact Hp|]. intro Hq. rewrite Hp, Hq. reflexivity.
Qed.

Lemma load_url_path_query_witness :
  load_url split_port_example "example.com/x" = Ok example_loaded_path /\
  path_str example_loaded_path = "/x?".
Proof.
  split; [reflexivity|].
  destruct (load_url_path_query split_port_example "example.com/x" example_loaded_path
              eq_refl) as [r [Hr [_ Hq]]].
  rewrite Hq; injection Hr as <-; reflexivity.
Defined.

(* ================================================================== *)
(** * Further properties of the module *)

(** ** Shared helper lemmas *)

Lemma lookup_file_filter fs p q :
  q <> p ->
  lookup_file (List.filter (fun e => negb (String.eqb (fst e) p)) fs) q = lookup_file fs q.
Proof.
  intro Hqp. induction fs as [|[k d] fs IH]; simpl; [reflexivity|].
  destruct (String.eqb k p) eqn:Ek; simpl.
  - apply String.eqb_eq in Ek. subst k.
    destruct (String.eqb q p) eqn:Eq; [apply String.eqb_eq in Eq; contradiction|]. exact IH.
  - rewrite IH. reflexivity.
Qed.

Lemma lookup_file_head fs p d :
  lookup_file ((p, d) :: fs) p = Some d.
Proof. simpl. rewrite String.eqb_refl. reflexivity. Qed.

(** [_download] on an open connection, with the URL accepted by requests. *)
Lemma download_eq c rp lp w :
  is_open c = true -> requests_accepts (_get_url c rp) = true ->
  _download c rp lp w =
    (let req := GET (_get_url c rp) in
     let resp := w_server w req in
     let w1 := set_sent w (w_sent w ++ [req])%list in
     if is_error_status (status_code resp) then (Err (HTTPError (status_code resp)), w1)
     else (Ok tt, set_files w1 ((lp, content resp) ::
                   List.filter (fun e => negb (String.eqb (fst e) lp)) (w_files w)))).
Proof.
  intros Ho Ha. unfold _download, assert_, check_path, bind, ret, send, raise_for_status, raise.
  rewrite Ho. simpl. rewrite Ha. simpl.
  destruct (is_error_status _); reflexivity.
Qed.

Lemma in_read_modes_not_write m :
  in_modes m ["r"; "rb"] = true -> in_modes m ["w"; "wb"] = false.
Proof.
  unfold in_modes. simpl. rewrite orb_false_r. intro H.
  apply orb_true_iff in H as [H|H]; apply String.eqb_eq in H; subst m; reflexivity.
Qed.

Lemma split_all_no_sep c s : contains_char c s = false -> split_all c s = [s].
Proof.
  induction s as [|a s IH]; simpl; intro H; [reflexivity|].
  apply orb_false_iff in H as [Ha Hs]. unfold char_eqb in *. rewrite Ha, IH by exact Hs.
  reflexivity.
Qed.

Lemma rsplit1_none c s : rsplit1 c s = None -> contains_char c s = false.
Proof.
  induction s as [|a s IH]; simpl; intro H; [reflexivity|].
  destruct (rsplit1 c s) as [[x y]|]; [discriminate|].
  destruct (char_eqb a c); [discriminate|]. rewrite IH; reflexivity.
Qed.

Lemma rsplit1_tail c s x y : rsplit1 c s = Some (x, y) -> contains_char c y = false.
Proof.
  revert x y. induction s as [|a s IH]; intros x y H; simpl in H; [discriminate|].
  destruct (rsplit1 c s) as [[x' y']|] eqn:E.
  - injection H as _ <-. exact (IH x' y' eq_refl).
  - destruct (char_eqb a c); [|discriminate]. injection H as _ <-. apply rsplit1_none, E.
Qed.

Lemma split_at_last_sep_app p : fst (split_at_last_sep p) ++ snd (split_at_last_sep p) = p.
Proof.
  unfold split_at_last_sep. destruct (rsplit1 "/" p) as [[x y]|] eqn:E; simpl; [|reflexivity].
  apply rsplit1_some in E. rewrite E, <- append_assoc. reflexivity.
Qed.

Lemma basename_no_sep p : contains_char "/" (basename p) = false.
Proof.
  unfold basename, split_at_last_sep. destruct (rsplit1 "/" p) as [[x y]|] eqn:E; simpl.
  - apply (rsplit1_tail _ _ _ _ E).
  - apply rsplit1_none, E.
Qed.



Lemma rstrip_chars_head cs a r :
  rstrip_chars cs (String a r) = EmptyString \/
  exists r', rstrip_chars cs (String a r) = String a r'.
Proof.
  simpl. destruct (rstrip_chars cs r).
  - destruct (contains_char a cs); [left|right; eexists]; reflexivity.
  - right. eexists. reflexivity.
Qed.

Lemma lstrip_chars_head cs s :
  match lstrip_chars cs s with
  | String a _ => contains_char a cs = false
  | EmptyString => True
  end.
Proof.
  induction s as [|a s IH]; simpl; [exact I|].
  destruct (contains_char a cs) eqn:E; [exact IH | exact E].
Qed.

(** ** [remove] *)

(** [remove] on an open connection issues exactly one DELETE to the path's
    URL, fails with [HTTPError] exactly for a 4xx/5xx answer, and leaves
    the local files and warnings alone. *)
Theorem remove_single_delete :
  forall (c : https_connection) (p : string) (w : world),
    is_open c = true -> requests_accepts (_get_url c p) = true ->
    let resp := w_server w (DELETE (_get_url c p)) in
    remove c p w =
      (if is_error_status (status_code resp) then Err (HTTPError (status_code resp)) else Ok tt,
       set_sent w (w_sent w ++ [DELETE (_get_url c p)])%list).
Proof.
  intros c p w Ho Ha resp.
  unfold remove, assert_, check_path, is_dir, bind, ret, send, raise_for_status, raise.
  rewrite Ho. simpl. rewrite Ha. simpl. subst resp.
  destruct (is_error_status _); reflexivity.
Qed.

Lemma remove_single_delete_witness :
  remove (open_conn 443) "/x" w0 = (Ok tt, set_sent w0 [DELETE "https://example.com/x"]).
Proof. apply (remove_single_delete (open_conn 443) "/x" w0 eq_refl eq_refl). Defined.

(** ** [_download] *)

(** [_download] on an open connection issues one GET to the remote URL;
    on a 4xx/5xx answer it raises [HTTPError] and leaves every local file
    as it was (the status is checked before writing); otherwise the local
    file holds exactly the response body and no other local file changes. *)
Theorem download_checks_then_overwrites :
  forall (c : https_connection) (rp lp : string) (w : world),
    is_open c = true -> requests_accepts (_get_url c rp) = true ->
    let resp := w_server w (GET (_get_url c rp)) in
    let (res, w') := _download c rp lp w in
    w_sent w' = (w_sent w ++ [GET (_get_url c rp)])%list /\
    (is_error_status (status_code resp) = true ->
       res = Err (HTTPError (status_code resp)) /\ w_files w' = w_files w) /\
    (is_error_status (status_code resp) = false ->
       res = Ok tt /\ lookup_file (w_files w') lp = Some (content resp) /\
       forall q, q <> lp -> lookup_file (w_files w') q = lookup_file (w_files w) q).
Proof.
  intros c rp lp w Ho Ha resp. rewrite (download_eq c rp lp w Ho Ha). cbv zeta.
  fold resp. destruct (is_error_status (status_code resp)) eqn:E.
  - split; [reflexivity|]. split; [intros _; split; reflexivity|].
    intro H; discriminate H.
  - split; [reflexivity|]. split; [intro H; discriminate H|].
    intros _. split; [reflexivity|]. split.
    + apply lookup_file_head.
    + intros q Hq. simpl. destruct (String.eqb q lp) eqn:Eq.
      * apply String.eqb_eq in Eq. contradiction.
      * apply lookup_file_filter, Hq.
Qed.

Lemma download_checks_then_overwrites_witness :
  lookup_file (w_files (snd (_download (open_conn 443) "/x" "/tmp/x" w0))) "/tmp/x"
  = Some "remote".
Proof.
  pose proof (download_checks_then_overwrites (open_conn 443) "/x" "/tmp/x" w0 eq_refl eq_refl)
    as H.
  cbv zeta in H. destruct (_download (open_conn 443) "/x" "/tmp/x" w0) as [res w'].
  destruct H as [_ [_ H]]. apply (H eq_refl).
Defined.

(** ** [open_file] for reading *)

(** Opening in mode "r" or "rb" (any case) on an open connection, when the
    GET succeeds, stages the remote body byte for byte in the temp file
    named after the path, issues exactly that one GET, and returns a
    handle without write-back. *)
Theorem open_file_read_stages_body :
  forall (c : https_connection) (path mode : string) (w : world) (hint : string),
    is_open c = true -> name c path = Ok hint ->
    in_modes (lower mode) ["r"; "rb"] = true ->
    requests_accepts (_get_url c path) = true ->
    is_error_status (status_code (w_server w (GET (_get_url c path)))) = false ->
    exists h w',
      open_file c path mode w = (Ok h, w') /\
      pf_writeback h = None /\ pf_proxy_path h = w_temp_path w hint /\
      lookup_file (w_files w') (pf_proxy_path h) =
        Some (content (w_server w (GET (_get_url c path)))) /\
      w_sent w' = (w_sent w ++ [GET (_get_url c path)])%list.
Proof.
  intros c path mode w hint Ho Hn Hr Ha He.
  unfold check_path in Hn.
  unfold open_file, assert_, check_path, lift, get_temp_file_path.
  rewrite Ho, Hn. unfold bind at 1 2 3 4, ret at 1 2 3. cbv beta iota.
  rewrite (in_read_modes_not_write _ Hr). cbv beta iota delta [negb].
  rewrite (download_eq c path (w_temp_path w hint) w Ho Ha). cbv zeta. rewrite He.
  cbv beta iota. rewrite Hr.
  eexists _, _. split; [reflexivity|]. simpl. repeat split.
  apply lookup_file_head.
Qed.

Lemma open_file_read_stages_body_witness :
  exists h w',
    open_file (open_conn 443) "/f" "RB" w0 = (Ok h, w') /\
    pf_writeback h = None /\ pf_proxy_path h = "/tmp/f" /\
    lookup_file (w_files w') (pf_proxy_path h) = Some "remote" /\
    w_sent w' = [GET "https://example.com/f"].
Proof.
  apply (open_file_read_stages_body (open_conn 443) "/f" "RB" w0 "f");
    reflexivity.
Defined.

(** ** [_upload] refusals *)

(** On an open connection, [_upload] refuses a [Path] that is not on the
    local file system with an assertion error, and a local file that does
    not exist with [OSError]; in both cases no request is sent and nothing
    changes. *)
Theorem upload_refuses_without_sending :
  forall (c : https_connection) (s p : string) (w : world),
    is_open c = true ->
    _upload c (LocalPath false s) p w = (Err AssertionError, w) /\
    (lookup_file (w_files w) s = None ->
       _upload c (LocalStr s) p w = (Err OSError, w) /\
       _upload c (LocalPath true s) p w = (Err OSError, w)).
Proof.
  intros c s p w Ho. unfold _upload, assert_, bind, ret, raise, read_local.
  rewrite Ho. simpl. split; [reflexivity|]. intro Hl. rewrite Hl. split; reflexivity.
Qed.

Lemma upload_refuses_without_sending_witness :
  _upload (open_conn 443) (LocalStr "/missing") "/x" w0 = (Err OSError, w0).
Proof.
  apply (proj2 (upload_refuses_without_sending (open_conn 443) "/missing" "/x" w0 eq_refl)).
  reflexivity.
Defined.

(** ** [is_file] against [_download] *)

(** On an open connection, [is_file] answers true exactly when a
    [_download] of the same path against the same server would succeed;
    [is_file] itself writes no local file. *)
Theorem is_file_iff_download_succeeds :
  forall (c : https_connection) (p lp : string) (w : world),
    is_open c = true -> requests_accepts (_get_url c p) = true ->
    (fst (is_file c p w) = Ok true <-> fst (_download c p lp w) = Ok tt) /\
    w_files (snd (is_file c p w)) = w_files w.
Proof.
  intros c p lp w Ho Ha. rewrite (download_eq c p lp w Ho Ha).
  unfold is_file, check_path, bind, ret, send. cbn [req_url]. rewrite Ha. cbv zeta. simpl.
  unfold ok. destruct (is_error_status _); simpl; split; try reflexivity; split; intro H;
    try discriminate H; reflexivity.
Qed.

Lemma is_file_iff_download_succeeds_witness :
  fst (_download (open_conn 443) "/x" "/tmp/y" w0) = Ok tt.
Proof.
  apply (proj1 (is_file_iff_download_succeeds (open_conn 443) "/x" "/tmp/y" w0 eq_refl eq_refl)).
  reflexivity.
Defined.

(** ** [close] twice *)

(** Closing an open connection twice leaves it closed and emits exactly
    one "Double-closing" warning, from the second call. *)
Theorem close_twice_warns_once :
  forall (c : https_connection) (w : world),
    is_open c = true ->
    match close c w with
    | (Ok c1, w1) =>
        w_warnings w1 = w_warnings w /\
        match close c1 w1 with
        | (Ok c2, w2) =>
            is_open c2 = false /\
            w_warnings w2 = (w_warnings w ++ ["Double-closing HTTPS connection."])%list
        | (Err _, _) => False
        end
    | (Err _, _) => False
    end.
Proof.
  intros c w Ho. unfold close, bind, ret, warn. rewrite Ho. simpl. split; repeat split.
Qed.

Lemma close_twice_warns_once_witness :
  w_warnings (snd (close (set_is_open (open_conn 443) false) w0))
  = ["Double-closing HTTPS connection."].
Proof.
  pose proof (close_twice_warns_once (open_conn 443) w0 eq_refl) as H.
  simpl in H. destruct H as [_ [_ H]]. exact H.
Defined.

(** ** [load_url]: implicit scheme and ports *)

(** A URL without "://" is loaded exactly as the same URL with "https://"
    in front. *)
Theorem load_url_implicit_https :
  forall (split_port : string -> Z -> result (string * Z)) (url : string),
    contains_sub "://" url = false ->
    load_url split_port url = load_url split_port ("https://" ++ url).
Proof.
  intros sp url H. unfold load_url, with_scheme. rewrite H. reflexivity.
Qed.

Lemma load_url_implicit_https_witness :
  load_url split_port_example "example.com/x" =
  load_url split_port_example "https://example.com/x".
Proof. apply load_url_implicit_https. reflexivity. Defined.



(** For a URL that passes the scheme, params, fragment and user-info
    checks, a netloc with two or more ":" or with a port that [int()]
    refuses makes [load_url] fail with [ValueError]. *)
Theorem load_url_port_errors :
  forall (split_port : string -> Z -> result (string * Z)) (url : string) (r : ParseResult),
    urlparse (with_scheme url) = Ok r ->
    p_params r = "" -> p_fragment r = "" -> lower (p_scheme r) = "https" ->
    contains_char "@" (p_netloc r) = false ->
    (exists a b d rest, split_all ":" (p_netloc r) = a :: b :: d :: rest) \/
    (exists a b, split_all ":" (p_netloc r) = [a; b] /\ py_int b = None) ->
    load_url split_port url = Err ValueError.
Proof.
  intros sp url r Hr Hp Hf Hs Ha Hbad. unfold load_url. rewrite Hr, Hp, Hf, Hs, Ha. simpl.
  destruct (contains_char ":" (p_netloc r)) eqn:Hc.
  - destruct Hbad as [[a [b [d [rest E]]]] | [a [b [E Hb]]]]; rewrite E; [reflexivity|].
    rewrite Hb. reflexivity.
  - rewrite (split_all_no_sep _ _ Hc) in Hbad.
    destruct Hbad as [[a [b [d [rest E]]]] | [a [b [E _]]]]; discriminate E.
Qed.

Lemma load_url_port_errors_witness :
  load_url split_port_example "example.com:1:2/x" = Err ValueError /\
  load_url split_port_example "example.com:http/x" = Err ValueError.
Proof.
  split.
  - eapply (load_url_port_errors split_port_example "example.com:1:2/x");
      [reflexivity .. |]. left. do 4 eexists. reflexivity.
  - eapply (load_url_port_errors split_port_example "example.com:http/x");
      [reflexivity .. |]. right. do 2 eexists. split; reflexivity.
Defined.

(** ** [name], [dir] and [join] *)

(** A name returned by [name] never contains "/", "?" or "#"; it is a
    single segment, usable as the temp-file hint of [open_file]. *)
Theorem name_single_segment :
  forall (c : https_connection) (p n : string),
    name c p = Ok n ->
    contains_char "/" n = false /\ contains_char "?" n = false /\ contains_char "#" n = false.
Proof.
  intros c p n H. unfold name, check_path in H.
  destruct (urlparse p) as [r|e] eqn:Hr; [|discriminate]. injection H as <-.
  destruct (urlparse_path _ _ Hr) as [Hq Hf].
  pose proof (split_at_last_sep_app (p_path r)) as Hs.
  split; [apply basename_no_sep|].
  unfold basename. rewrite <- Hs, contains_char_app in Hq, Hf.
  apply orb_false_iff in Hq as [_ Hq]. apply orb_false_iff in Hf as [_ Hf].
  split; assumption.
Qed.

Lemma name_single_segment_witness :
  contains_char "/" "c" = false /\ contains_char "?" "c" = false /\
  contains_char "#" "c" = false.
Proof. apply (name_single_segment (open_conn 443) "/a/b/c?q=1" "c"). reflexivity. Defined.



(** When the first segment is not made only of "/" and "\", the joined
    path starts with "/" exactly when the first segment does. *)
Theorem join_leading_slash :
  forall (c : https_connection) (e0 : string) (es : Datatypes.list string),
    strip_chars "/\" e0 <> "" ->
    starts_with "/" (path_str (join c (e0 :: es))) = starts_with "/" e0.
Proof.
  intros c e0 es Hne. unfold join, check_path. cbn [path_str].
  destruct (starts_with "/" e0) eqn:Es.
  - reflexivity.
  - cbn [map]. unfold strip_chars in *. pose proof (lstrip_chars_head "/\" e0) as Hl.
    destruct (lstrip_chars "/\" e0) as [|a r] eqn:El; [simpl in Hne; contradiction|].
    destruct (rstrip_chars_head "/\" a r) as [H0|[r' Hr']]; [contradiction|].
    rewrite Hr'. simpl in Hl.
    assert (Ha : char_eqb "/" a = false).
    { unfold char_eqb. destruct (Ascii.eqb "/" a) eqn:E; [|reflexivity].
      apply Ascii.eqb_eq in E. subst a. discriminate Hl. }
    destruct (map _ es); cbn [String.concat append starts_with]; rewrite Ha; reflexivity.
Qed.

Lemma join_leading_slash_witness :
  starts_with "/" (path_str (join (open_conn 443) ["a/"; "/b"])) = false.
Proof. apply (join_leading_slash (open_conn 443) "a/" ["/b"]). discriminate. Defined.
